(** * GPTEmptyIndexQuery: the query strategy of the empty index

    A shallow embedding of [gpt_index/indices/empty/query.py].  The class
    has three methods and a factory; all real work is done by objects of
    other modules (the LLM predictor, the base query class, the prompt and
    response classes).  Those collaborators are taken as parameters: their
    types and constants by the class [Imports], the methods of the base
    class by the class [Super].

    Python calls are effectful: they may raise, and they may change the
    state of the objects they reach.  A computation is therefore a function
    from a world to an outcome and a new world; the world carries the state
    owned by the collaborators together with the trace of the calls that
    this module has issued to them. *)

From stdpp Require Import base option strings gmap list.

Open Scope string_scope.
Open Scope list_scope.

(** ** Exceptions and outcomes *)

(** The exceptions a call can end with.  [ValueError] is the one raised by
    this module; [Exception] stands for any other class, by name. *)
Inductive exn : Type :=
  | ValueError (msg : string)
  | Exception (cls msg : string).

Inductive outcome (A : Type) : Type :=
  | Returned (a : A)
  | Raised (e : exn).
Arguments Returned {A} a.
Arguments Raised {A} e.

(** ** What query.py imports *)

Class Imports : Type := {
  (** gpt_index.prompts.prompts.SimpleInputPrompt, with the truth value
      Python gives its instances ([__bool__], else [__len__], else true) *)
  SimpleInputPrompt : Type;
  SimpleInputPrompt_bool : SimpleInputPrompt → bool;
  (** gpt_index.prompts.default_prompts.DEFAULT_SIMPLE_INPUT_PROMPT *)
  DEFAULT_SIMPLE_INPUT_PROMPT : SimpleInputPrompt;
  (** gpt_index.indices.response.type.ResponseMode and its member GENERATION *)
  ResponseMode : Type;
  ResponseMode_eq_dec :: EqDecision ResponseMode;
  GENERATION : ResponseMode;
  (** gpt_index.data_structs.node_v2.NodeWithScore *)
  NodeWithScore : Type;
  (** gpt_index.response.schema.StreamingResponse *)
  StreamingResponse : Type;
  (** typing.Any, the values of keyword arguments passed through *)
  Any : Type;
  (** second component of what the predictor returns *)
  Metadata : Type;
  (** the state owned by the collaborators (predictor, base class) *)
  Store : Type;
}.

Section Model.
Context `{Imports}.

(** ** Worlds, traces and the monad of Python computations *)

(** Calls that leave this module. *)
Inductive event : Type :=
  | EvPredict (prompt : SimpleInputPrompt) (prompt_args : gmap string string)
  | EvPredictWithStream (prompt : SimpleInputPrompt) (is_last : bool)
      (prompt_args : gmap string string)
  | EvSuperInit (kwargs : gmap string Any)
  | EvSuperFromArgs (response_mode : ResponseMode) (kwargs : gmap string Any).

Record world : Type := World {
  trace : list event;
  store : Store;
}.

Definition Py (A : Type) : Type := world → outcome A * world.

Definition py_ret {A} (a : A) : Py A := λ w, (Returned a, w).

Definition py_bind {A B} (m : Py A) (k : A → Py B) : Py B :=
  λ w, match m w with
       | (Returned a, w') => k a w'
       | (Raised e, w') => (Raised e, w')
       end.

Definition raise {A} (e : exn) : Py A := λ w, (Raised e, w).

(** A call into foreign code [f]: the event is appended to the trace, the
    callee runs on the store. *)
Definition foreign {A} (ev : event) (f : Store → outcome A * Store) : Py A :=
  λ w, let '(r, s) := f (store w) in
       (r, World (trace w ++ [ev]) s).

End Model.

Notation "x <- m ;; k" := (py_bind m (λ x, k))
  (at level 62, m at next level, right associativity, only parsing).

Section Classes.
Context `{Imports}.

(** ** The data model *)

(** gpt_index.indices.query.schema.QueryBundle; only [query_str] is read. *)
Record QueryBundle : Type := {
  query_str : string;
  custom_embedding_strs : option (list string);
}.

(** Modelled from the spec: the Response class of gpt_index.response.schema
    is not part of the source; the specification describes it as the
    generated text together with a list of source nodes, which is empty
    unless the constructor is given one. *)
Record Response : Type := {
  response : string;
  source_nodes : list NodeWithScore;
}.

Definition Response_new (response : string)
    (source_nodes : option (list NodeWithScore)) : Response :=
  {| response := response; source_nodes := default [] source_nodes |}.

(** RESPONSE_TYPE = Union[Response, StreamingResponse] *)
Inductive RESPONSE_TYPE : Type :=
  | IsResponse (r : Response)
  | IsStreamingResponse (r : StreamingResponse).

(** The prediction service, as the object [llm_predictor] with its two
    methods.  Both return a pair of the text and some metadata. *)
Record LLMPredictor : Type := {
  predict :
    SimpleInputPrompt → gmap string string →
    Store → outcome (string * Metadata) * Store;
  predict_with_stream :
    SimpleInputPrompt → bool → gmap string string →
    Store → outcome (string * Metadata) * Store;
}.

Record ServiceContext : Type := {
  llm_predictor : LLMPredictor;
}.

(** The attributes the base initializer sets and this class reads. *)
Record BaseGPTIndexQuery : Type := {
  _service_context : ServiceContext;
  _streaming : bool;
}.

Record GPTEmptyIndexQuery : Type := {
  _input_prompt : SimpleInputPrompt;
  super : BaseGPTIndexQuery;
}.

(** The methods of the base class that this class calls through [super()]. *)
Class Super : Type := {
  BaseGPTIndexQuery_init :
    gmap string Any → Store → outcome BaseGPTIndexQuery * Store;
  BaseGPTIndexQuery_from_args :
    ResponseMode → gmap string Any → Store → outcome GPTEmptyIndexQuery * Store;
}.

Context `{Super}.

(** ** Python's [or] on an optional prompt *)

Definition truthy (x : option SimpleInputPrompt) : bool :=
  match x with
  | None => false
  | Some p => SimpleInputPrompt_bool p
  end.

(** [x or d]: [x] when it is truthy, else [d]. *)
Definition py_or (x : option SimpleInputPrompt) (d : SimpleInputPrompt)
    : SimpleInputPrompt :=
  match x with
  | Some p => if truthy x then p else d
  | None => d
  end.

(** ** The methods *)

Definition init (input_prompt : option SimpleInputPrompt)
    (kwargs : gmap string Any) : Py GPTEmptyIndexQuery :=
  let _input_prompt := py_or input_prompt DEFAULT_SIMPLE_INPUT_PROMPT in
  base <- foreign (EvSuperInit kwargs) (BaseGPTIndexQuery_init kwargs) ;;
  py_ret {| _input_prompt := _input_prompt; super := base |}.

Definition retrieve (self : GPTEmptyIndexQuery) (query_bundle : QueryBundle)
    : Py (list NodeWithScore) :=
  py_ret [].

Definition synthesize (self : GPTEmptyIndexQuery) (query_bundle : QueryBundle)
    (nodes : list NodeWithScore)
    (additional_source_nodes : option (list NodeWithScore))
    : Py RESPONSE_TYPE :=
  if negb (_streaming (super self)) then
    let prompt_args := {[ "query_str" := query_str query_bundle ]} in
    result <-
      foreign (EvPredict (_input_prompt self) prompt_args)
        (predict (llm_predictor (_service_context (super self)))
           (_input_prompt self) prompt_args) ;;
    let '(response, _) := result in
    py_ret (IsResponse (Response_new response None))
  else
    let llm_predictor := llm_predictor (_service_context (super self)) in
    let prompt_args := {[ "query_str" := query_str query_bundle ]} in
    result <-
      foreign (EvPredictWithStream (_input_prompt self) true prompt_args)
        (predict_with_stream llm_predictor (_input_prompt self) true prompt_args) ;;
    let '(response, _) := result in
    py_ret (IsResponse (Response_new response None)).

Definition from_args (response_mode : option ResponseMode)
    (kwargs : gmap string Any) : Py GPTEmptyIndexQuery :=
  let response_mode := default GENERATION response_mode in
  if bool_decide (response_mode ≠ GENERATION) then
    raise (ValueError "response_mode should not be specified for empty query")
  else
    foreign (EvSuperFromArgs response_mode kwargs)
      (BaseGPTIndexQuery_from_args response_mode kwargs).

End Classes.

Section Observations.
Context `{Imports}.

(** ** What a caller can observe of [synthesize] *)

(** The one call that [synthesize] issues for [self] and a query, when the
    template in use is [prompt]. *)
Definition prediction_call (self : GPTEmptyIndexQuery)
    (prompt : SimpleInputPrompt) (query_bundle : QueryBundle) : event :=
  if _streaming (super self)
  then EvPredictWithStream prompt true {[ "query_str" := query_str query_bundle ]}
  else EvPredict prompt {[ "query_str" := query_str query_bundle ]}.

(** What the predictor of [self] answers to that call on a store. *)
Definition prediction (self : GPTEmptyIndexQuery) (query_bundle : QueryBundle)
    (s : Store) : outcome (string * Metadata) * Store :=
  let llm := llm_predictor (_service_context (super self)) in
  let prompt_args := {[ "query_str" := query_str query_bundle ]} in
  if _streaming (super self)
  then predict_with_stream llm (_input_prompt self) true prompt_args s
  else predict llm (_input_prompt self) prompt_args s.

End Observations.

(** ** A small installation, to run the methods on

    Templates are a class deriving from [str], so an empty template is
    falsy; the response modes are the three the library documents; the
    store counts the calls the predictor has served. *)
Module Demo.

Inductive mode : Type := Generation | Refine | TreeSummarize.

#[export] Instance mode_eq_dec : EqDecision mode.
Proof. solve_decision. Defined.

#[export] Instance imports : Imports := {|
  SimpleInputPrompt := string;
  SimpleInputPrompt_bool := λ tmpl, bool_decide (tmpl ≠ "");
  DEFAULT_SIMPLE_INPUT_PROMPT := "{query_str}";
  ResponseMode := mode;
  GENERATION := Generation;
  NodeWithScore := string * nat;
  StreamingResponse := list string;
  Any := string;
  Metadata := string;
  Store := nat;
|}.

(** A predictor that answers with the query it was given, after the
    template, and reports the template as metadata. *)
Definition echo : LLMPredictor := {|
  predict := λ prompt prompt_args served,
    (Returned (prompt +:+ " <- " +:+ default "" (prompt_args !! "query_str"), prompt),
     S served);
  predict_with_stream := λ prompt is_last prompt_args served,
    (Returned (prompt +:+ " <~ " +:+ default "" (prompt_args !! "query_str"), prompt),
     S served);
|}.

(** A predictor whose provider is down. *)
Definition unreachable : LLMPredictor := {|
  predict := λ _ _ served,
    (Raised (Exception "TimeoutError" "provider did not answer"), served);
  predict_with_stream := λ _ _ _ served,
    (Raised (Exception "ConnectionError" "stream closed"), served);
|}.

Definition base_of (kwargs : gmap string string) : BaseGPTIndexQuery := {|
  _service_context :=
    {| llm_predictor :=
         if bool_decide (kwargs !! "llm" = Some "unreachable")
         then unreachable else echo |};
  _streaming := bool_decide (kwargs !! "streaming" = Some "True");
|}.

#[export] Instance base : Super := {|
  BaseGPTIndexQuery_init := λ kwargs s, (Returned (base_of kwargs), s);
  BaseGPTIndexQuery_from_args := λ response_mode kwargs s,
    (Returned {| _input_prompt := "{query_str}"; super := base_of kwargs |}, s);
|}.

Definition fresh : world := World [] 0.

Definition france : QueryBundle :=
  {| query_str := "capital of France"; custom_embedding_strs := None |}.

Definition blocking : GPTEmptyIndexQuery :=
  {| _input_prompt := "{query_str}"; super := base_of ∅ |}.

Definition streaming : GPTEmptyIndexQuery :=
  {| _input_prompt := "{query_str}";
     super := base_of {[ "streaming" := "True" ]} |}.

Definition offline : GPTEmptyIndexQuery :=
  {| _input_prompt := "{query_str}";
     super := base_of {[ "llm" := "unreachable" ]} |}.

Definition tutor : GPTEmptyIndexQuery :=
  {| _input_prompt := "Q: {query_str}";
     super := base_of {[ "streaming" := "True" ]} |}.

End Demo.

(** ** More of the installation: a base class that insists on its index,
    a predictor that streams what it would have answered, and a bundle
    that carries embedding strings. *)
Module Scenario.
Import Demo.

Definition strict : Super := {|
  BaseGPTIndexQuery_init := λ kwargs s,
    match kwargs !! "index_struct" with
    | Some _ => (Returned (base_of kwargs), s)
    | None =>
        (Raised (Exception "TypeError" "missing argument: index_struct"), s)
    end;
  BaseGPTIndexQuery_from_args := λ response_mode kwargs s,
    match kwargs !! "index_struct" with
    | Some _ =>
        (Returned {| _input_prompt := "{query_str}"; super := base_of kwargs |}, s)
    | None =>
        (Raised (Exception "TypeError" "missing argument: index_struct"), s)
    end;
|}.

Definition steady : LLMPredictor := {|
  predict := λ prompt prompt_args served,
    (Returned ("Paris", prompt), S served);
  predict_with_stream := λ prompt is_last prompt_args served,
    (Returned ("Paris", prompt), S served);
|}.

Definition steady_blocking : GPTEmptyIndexQuery :=
  {| _input_prompt := "{query_str}";
     super := {| _service_context := {| llm_predictor := steady |};
                 _streaming := false |} |}.

Definition steady_streaming : GPTEmptyIndexQuery :=
  {| _input_prompt := "{query_str}";
     super := {| _service_context := {| llm_predictor := steady |};
                 _streaming := true |} |}.

Definition france_embedded : QueryBundle :=
  {| query_str := "capital of France";
     custom_embedding_strs := Some ["Paris"; "France"] |}.

Definition italy : QueryBundle :=
  {| query_str := "capital of Italy"; custom_embedding_strs := None |}.

End Scenario.

(** ** An installation whose prompts are plain objects

    The prompt class defines neither [__bool__] nor [__len__], so every
    instance is truthy, the empty template included. *)
Module Plain.

Record prompt : Type := Prompt { template : string }.

#[export] Instance imports : Imports := {|
  SimpleInputPrompt := prompt;
  SimpleInputPrompt_bool := λ _, true;
  DEFAULT_SIMPLE_INPUT_PROMPT := Prompt "{query_str}";
  ResponseMode := Demo.mode;
  ResponseMode_eq_dec := Demo.mode_eq_dec;
  GENERATION := Demo.Generation;
  NodeWithScore := string * nat;
  StreamingResponse := list string;
  Any := string;
  Metadata := string;
  Store := nat;
|}.

(** The predictor answers with the template it was called with and the
    query, so its answer tells which template it received. *)
Definition echo : LLMPredictor := {|
  predict := λ prompt prompt_args served,
    (Returned (template prompt +:+ " <- " +:+ default "" (prompt_args !! "query_str"),
               template prompt),
     S served);
  predict_with_stream := λ prompt is_last prompt_args served,
    (Returned (template prompt +:+ " <~ " +:+ default "" (prompt_args !! "query_str"),
               template prompt),
     S served);
|}.

Definition base_of (kwargs : gmap string string) : BaseGPTIndexQuery := {|
  _service_context := {| llm_predictor := echo |};
  _streaming := bool_decide (kwargs !! "streaming" = Some "True");
|}.

#[export] Instance base : Super := {|
  BaseGPTIndexQuery_init := λ kwargs s, (Returned (base_of kwargs), s);
  BaseGPTIndexQuery_from_args := λ response_mode kwargs s,
    (Returned {| _input_prompt := Prompt "{query_str}"; super := base_of kwargs |}, s);
|}.

Definition fresh : world := World [] 0.

Definition france : QueryBundle :=
  {| query_str := "capital of France"; custom_embedding_strs := None |}.

Definition blocking : GPTEmptyIndexQuery :=
  {| _input_prompt := Prompt "{query_str}"; super := base_of ∅ |}.

Definition tutor : GPTEmptyIndexQuery :=
  {| _input_prompt := Prompt "Q: {query_str}";
     super := base_of {[ "streaming" := "True" ]} |}.

Definition blank : GPTEmptyIndexQuery :=
  {| _input_prompt := Prompt ""; super := base_of ∅ |}.

End Plain.

(** * Properties *)

Section Monad_facts.
Context `{Imports}.

Lemma py_bind_ret {A B} (a : A) (k : A → Py B) w :
  py_bind (py_ret a) k w = k a w.
Proof. reflexivity. Qed.

Lemma py_bind_raise {A B} (e : exn) (k : A → Py B) w :
  py_bind (raise e) k w = (Raised e, w).
Proof. reflexivity. Qed.

(** A foreign call adds exactly its own event, whatever the callee does. *)
Lemma foreign_eq {A} ev (f : Store → outcome A * Store) w :
  foreign ev f w = ((f (store w)).1, World (trace w ++ [ev]) (f (store w)).2).
Proof. unfold foreign. by destruct (f (store w)). Qed.

Lemma foreign_trace {A} ev (f : Store → outcome A * Store) w :
  trace (foreign ev f w).2 = trace w ++ [ev].
Proof. by rewrite foreign_eq. Qed.

(** Binding after a foreign call: the continuation runs only on a return. *)
Lemma bind_foreign_eq {A B} ev (f : Store → outcome A * Store) (k : A → Py B) w :
  py_bind (foreign ev f) k w =
  match (f (store w)).1 with
  | Returned a => k a (World (trace w ++ [ev]) (f (store w)).2)
  | Raised e => (Raised e, World (trace w ++ [ev]) (f (store w)).2)
  end.
Proof. unfold py_bind. rewrite foreign_eq. by destruct (f (store w)).1. Qed.

End Monad_facts.

Section Synthesize_facts.
Context `{Imports}.

(** Both branches of [synthesize] have the same shape: one foreign call,
    then the text of the answer goes into a fresh [Response]. *)
Lemma synthesize_eq self query_bundle nodes additional_source_nodes w :
  synthesize self query_bundle nodes additional_source_nodes w =
  let answer := prediction self query_bundle (store w) in
  (match answer.1 with
   | Returned (text, _) => Returned (IsResponse (Response_new text None))
   | Raised e => Raised e
   end,
   World (trace w ++ [prediction_call self (_input_prompt self) query_bundle])
         answer.2).
Proof.
  unfold synthesize, prediction, prediction_call.
  destruct (_streaming (super self)); cbn [negb];
    rewrite bind_foreign_eq;
    match goal with |- context [(?call).1] => destruct call as [[[text meta]|e] s] end;
    reflexivity.
Qed.

Lemma synthesize_trace self query_bundle nodes additional_source_nodes w :
  trace (synthesize self query_bundle nodes additional_source_nodes w).2
  = trace w ++ [prediction_call self (_input_prompt self) query_bundle].
Proof. by rewrite synthesize_eq. Qed.

Lemma py_or_truthy (x : option SimpleInputPrompt) d :
  truthy x = true → Some (py_or x d) = x.
Proof. destruct x as [p|]; cbn; [intros ->; done | done]. Qed.

Lemma py_or_falsy (x : option SimpleInputPrompt) d :
  truthy x = false → py_or x d = d.
Proof. destruct x as [p|]; cbn; [intros ->; done | done]. Qed.

End Synthesize_facts.

Section Init_facts.
Context `{Imports} `{!Super}.

(** A successful construction stores the result of [or] and the base part
    built by the base initializer. *)
Lemma init_returned input_prompt kwargs w self w' :
  init input_prompt kwargs w = (Returned self, w') →
  _input_prompt self = py_or input_prompt DEFAULT_SIMPLE_INPUT_PROMPT
  ∧ (BaseGPTIndexQuery_init kwargs (store w)).1 = Returned (super self).
Proof.
  unfold init. rewrite bind_foreign_eq.
  destruct (BaseGPTIndexQuery_init kwargs (store w)) as [[b|e] s]; cbn.
  - unfold py_ret. intros [= <- <-]. done.
  - intros [=].
Qed.

End Init_facts.

Section Contract.
Context `{Imports} `{!Super}.

(** C4: for every query bundle (and every instance and world), [retrieve]
    returns the empty list of scored nodes; it does not raise, issues no
    call and leaves the world as it found it. *)
Theorem retrieve_empty (self : GPTEmptyIndexQuery) (query_bundle : QueryBundle)
    (w : world) :
  retrieve self query_bundle w = (Returned [], w).
Proof. reflexivity. Qed.

(** C1: with [_streaming] false, [synthesize] issues exactly one call,
    [predict], on the configured template with [query_str] bound to the
    query string of the bundle; the store is the one that call leaves;
    and when the call returns a text, the result is a [Response] holding
    that very text. *)
Theorem synthesize_blocking (self : GPTEmptyIndexQuery)
    (query_bundle : QueryBundle) nodes additional_source_nodes (w : world) :
  _streaming (super self) = false →
  let prompt_args := {[ "query_str" := query_str query_bundle ]} in
  let answer :=
    predict (llm_predictor (_service_context (super self)))
      (_input_prompt self) prompt_args (store w) in
  let run := synthesize self query_bundle nodes additional_source_nodes w in
  run.2 = World (trace w ++ [EvPredict (_input_prompt self) prompt_args]) answer.2
  ∧ ∀ text metadata,
      answer.1 = Returned (text, metadata) →
      run.1 = Returned (IsResponse {| response := text; source_nodes := [] |}).
Proof.
  intros Hblocking prompt_args answer run. subst run.
  rewrite synthesize_eq. unfold prediction, prediction_call.
  rewrite Hblocking. cbn [fst snd]. fold prompt_args. fold answer.
  split; [reflexivity|].
  intros text metadata ->. reflexivity.
Qed.

(** C2: with [_streaming] true, [synthesize] issues exactly one call,
    [predict_with_stream], with [is_last] true and [query_str] bound to
    the query string of the bundle, on the configured template; the result
    is never a [StreamingResponse], and when the call returns a text it is
    a plain [Response] holding that text. *)
Theorem synthesize_streaming (self : GPTEmptyIndexQuery)
    (query_bundle : QueryBundle) nodes additional_source_nodes (w : world) :
  _streaming (super self) = true →
  let prompt_args := {[ "query_str" := query_str query_bundle ]} in
  let answer :=
    predict_with_stream (llm_predictor (_service_context (super self)))
      (_input_prompt self) true prompt_args (store w) in
  let run := synthesize self query_bundle nodes additional_source_nodes w in
  run.2 = World (trace w ++ [EvPredictWithStream (_input_prompt self) true prompt_args])
            answer.2
  ∧ (∀ stream, run.1 ≠ Returned (IsStreamingResponse stream))
  ∧ ∀ text metadata,
      answer.1 = Returned (text, metadata) →
      run.1 = Returned (IsResponse {| response := text; source_nodes := [] |}).
Proof.
  intros Hstreaming prompt_args answer run. subst run.
  rewrite synthesize_eq. unfold prediction, prediction_call.
  rewrite Hstreaming. cbn [fst snd]. fold prompt_args. fold answer.
  split; [reflexivity|]. split.
  - intros stream. by destruct answer.1 as [[text metadata]|e].
  - intros text metadata ->. reflexivity.
Qed.

(** C3: [from_args] with a response mode other than GENERATION raises the
    ValueError at once: nothing has been called, the world is untouched
    and no instance exists.  With GENERATION (given or by default) the
    guard does not fire and the call is the base factory's, with the same
    arguments. *)
Theorem from_args_validation (response_mode : option ResponseMode)
    (kwargs : gmap string Any) (w : world) :
  let requested := default GENERATION response_mode in
  (requested ≠ GENERATION →
     from_args response_mode kwargs w =
     (Raised (ValueError "response_mode should not be specified for empty query"), w))
  ∧ (requested = GENERATION →
     from_args response_mode kwargs w =
     foreign (EvSuperFromArgs GENERATION kwargs)
       (BaseGPTIndexQuery_from_args GENERATION kwargs) w).
Proof.
  intros requested. unfold from_args. fold requested. split; intros Hmode.
  - by rewrite bool_decide_eq_true_2.
  - rewrite bool_decide_eq_false_2 by (intros Hne; by apply Hne).
    by rewrite Hmode.
Qed.

(** C10: whenever [from_args] returns an instance, the response mode in
    force was GENERATION, and GENERATION is what the single call to the
    base factory was given. *)
Theorem from_args_returns_generation (response_mode : option ResponseMode)
    (kwargs : gmap string Any) (w w' : world) (self : GPTEmptyIndexQuery) :
  from_args response_mode kwargs w = (Returned self, w') →
  default GENERATION response_mode = GENERATION
  ∧ trace w' = trace w ++ [EvSuperFromArgs GENERATION kwargs].
Proof.
  unfold from_args.
  destruct (decide (default GENERATION response_mode = GENERATION)) as [Hmode|Hmode].
  - rewrite bool_decide_eq_false_2 by (intros Hne; by apply Hne).
    rewrite Hmode. intros Hrun. split; [done|].
    by rewrite <- (foreign_trace (EvSuperFromArgs GENERATION kwargs)
                     (BaseGPTIndexQuery_from_args GENERATION kwargs) w), Hrun.
  - rewrite bool_decide_eq_true_2 by done. intros [=].
Qed.

(** C5: [synthesize] does not depend on [nodes] or on
    [additional_source_nodes]: two calls that agree on the instance, the
    bundle and the world give the same outcome and the same world (hence
    the same calls to the predictor), whatever the two lists are. *)
Theorem synthesize_ignores_nodes (self : GPTEmptyIndexQuery)
    (query_bundle : QueryBundle) (w : world)
    (nodes nodes' : list NodeWithScore)
    (additional_source_nodes additional_source_nodes' : option (list NodeWithScore)) :
  synthesize self query_bundle nodes additional_source_nodes w
  = synthesize self query_bundle nodes' additional_source_nodes' w.
Proof. by rewrite !synthesize_eq. Qed.

(** C7: when the call to the predictor ([predict] or
    [predict_with_stream], by configuration) raises [e], [synthesize]
    raises the same [e]; no value, so no [Response], is returned, and the
    world is the one the failed call left. *)
Theorem synthesize_propagates (self : GPTEmptyIndexQuery)
    (query_bundle : QueryBundle) nodes additional_source_nodes (w : world)
    (e : exn) :
  (prediction self query_bundle (store w)).1 = Raised e →
  synthesize self query_bundle nodes additional_source_nodes w =
  (Raised e,
   World (trace w ++ [prediction_call self (_input_prompt self) query_bundle])
     (prediction self query_bundle (store w)).2).
Proof. intros Hfail. rewrite synthesize_eq. cbn zeta. by rewrite Hfail. Qed.

(** C8: every value [synthesize] returns is a [Response] built from the
    text alone: it holds the text the predictor returned and its list of
    source nodes is empty, whatever nodes the caller passed. *)
Theorem synthesize_no_source_nodes (self : GPTEmptyIndexQuery)
    (query_bundle : QueryBundle) nodes additional_source_nodes (w w' : world)
    (result : RESPONSE_TYPE) :
  synthesize self query_bundle nodes additional_source_nodes w = (Returned result, w') →
  ∃ text metadata,
    (prediction self query_bundle (store w)).1 = Returned (text, metadata)
    ∧ result = IsResponse (Response_new text None)
    ∧ result = IsResponse {| response := text; source_nodes := [] |}.
Proof.
  rewrite synthesize_eq. cbn zeta.
  destruct (prediction self query_bundle (store w)).1 as [[text metadata]|e].
  - intros [= <- _]. by exists text, metadata.
  - intros [=].
Qed.

(** C9: a falsy [input_prompt], [None] or not, makes the constructor store
    the default template. *)
Theorem init_falsy_prompt (input_prompt : option SimpleInputPrompt)
    (kwargs : gmap string Any) (w w' : world) (self : GPTEmptyIndexQuery) :
  truthy input_prompt = false →
  init input_prompt kwargs w = (Returned self, w') →
  _input_prompt self = DEFAULT_SIMPLE_INPUT_PROMPT.
Proof.
  intros Hfalsy Hinit. apply init_returned in Hinit as [-> _].
  by apply py_or_falsy.
Qed.


End Contract.

(** * Further properties of the four methods *)

Section Further.
Context `{Imp : Imports} {Sup : Super}.

(** The constructor is one call to the base initializer followed by the
    assembly of the instance. *)
Lemma init_eq input_prompt kwargs w :
  init input_prompt kwargs w =
  let built := BaseGPTIndexQuery_init kwargs (store w) in
  (match built.1 with
   | Returned base =>
       Returned {| _input_prompt := py_or input_prompt DEFAULT_SIMPLE_INPUT_PROMPT;
                   super := base |}
   | Raised e => Raised e
   end,
   World (trace w ++ [EvSuperInit kwargs]) built.2).
Proof.
  unfold init. rewrite bind_foreign_eq. cbn zeta.
  by destruct (BaseGPTIndexQuery_init kwargs (store w)).1.
Qed.

Lemma py_or_idempotent (x : option SimpleInputPrompt) d :
  py_or (Some (py_or x d)) d = py_or x d.
Proof.
  destruct x as [p|]; cbn.
  - destruct (SimpleInputPrompt_bool p) eqn:Hp; [by rewrite Hp|].
    by destruct (SimpleInputPrompt_bool d).
  - by destruct (SimpleInputPrompt_bool d).
Qed.

(** X1: the constructor raises exactly when the base initializer raises,
    and then with the same exception: choosing the template cannot fail,
    and a failure of the base initializer is not caught. *)
Theorem init_raises_iff_base (input_prompt : option SimpleInputPrompt)
    (kwargs : gmap string Any) (w : world) (e : exn) :
  (init input_prompt kwargs w).1 = Raised e
  ↔ (BaseGPTIndexQuery_init kwargs (store w)).1 = Raised e.
Proof.
  rewrite init_eq. cbn zeta. cbn [fst].
  destruct (BaseGPTIndexQuery_init kwargs (store w)).1 as [b|e']; split;
    first [done | by intros [= ->]].
Qed.

(** X2: [input_prompt] is kept by the constructor and not forwarded: the
    call to the base initializer, the world it leaves and the base part
    of the instance are the same whatever prompt is given. *)
Theorem init_prompt_not_forwarded (input_prompt input_prompt' : option SimpleInputPrompt)
    (kwargs : gmap string Any) (w : world) :
  (init input_prompt kwargs w).2 = (init input_prompt' kwargs w).2
  ∧ ∀ self, (init input_prompt kwargs w).1 = Returned self →
      ∃ self', (init input_prompt' kwargs w).1 = Returned self'
               ∧ super self' = super self.
Proof.
  rewrite !init_eq. cbn zeta. cbn [fst snd]. split; [done|].
  destruct (BaseGPTIndexQuery_init kwargs (store w)).1 as [b|e]; [|done].
  intros self [= <-]. by eexists.
Qed.

(** X3: the choice of the template is idempotent: an instance built from
    the template of an existing instance holds that same template,
    whether that template is truthy or not. *)
Theorem init_template_idempotent (input_prompt : option SimpleInputPrompt)
    (kwargs kwargs' : gmap string Any) (w w' v v' : world)
    (self self' : GPTEmptyIndexQuery) :
  init input_prompt kwargs w = (Returned self, w') →
  init (Some (_input_prompt self)) kwargs' v = (Returned self', v') →
  _input_prompt self' = _input_prompt self.
Proof.
  intros Hfirst Hsecond.
  apply init_returned in Hfirst as [Hp _].
  apply init_returned in Hsecond as [Hp' _].
  rewrite Hp', Hp. apply py_or_idempotent.
Qed.

(** X4: the template an instance holds is the one supplied or the
    default, never a third one; and if the default template is truthy,
    so is the template of every instance. *)
Theorem init_template_origin (input_prompt : option SimpleInputPrompt)
    (kwargs : gmap string Any) (w w' : world) (self : GPTEmptyIndexQuery) :
  init input_prompt kwargs w = (Returned self, w') →
  (input_prompt = Some (_input_prompt self)
   ∨ _input_prompt self = DEFAULT_SIMPLE_INPUT_PROMPT)
  ∧ (SimpleInputPrompt_bool DEFAULT_SIMPLE_INPUT_PROMPT = true →
     SimpleInputPrompt_bool (_input_prompt self) = true).
Proof.
  intros Hinit. apply init_returned in Hinit as [-> _].
  destruct input_prompt as [p|]; cbn.
  - destruct (SimpleInputPrompt_bool p) eqn:Hp; split; auto.
  - split; auto.
Qed.

(** X5: [synthesize] raises nothing of its own: if it ends with an
    exception, the call to the predictor ended with that exception, and
    the store is the one that call left. *)
Theorem synthesize_raises_only_predictor (self : GPTEmptyIndexQuery)
    (query_bundle : QueryBundle) nodes additional_source_nodes (w w' : world)
    (e : exn) :
  synthesize self query_bundle nodes additional_source_nodes w = (Raised e, w') →
  prediction self query_bundle (store w) = (Raised e, store w').
Proof.
  rewrite synthesize_eq. cbn zeta.
  destruct (prediction self query_bundle (store w)) as [[[text metadata]|e'] s].
  - intros [=].
  - by intros [= -> <-].
Qed.

(** X6: of the query bundle only [query_str] is read: two bundles with
    the same query string give the same outcome and the same world,
    whatever else they carry. *)
Theorem synthesize_reads_query_str_only (self : GPTEmptyIndexQuery)
    (query_bundle query_bundle' : QueryBundle) nodes nodes'
    additional_source_nodes additional_source_nodes' (w : world) :
  query_str query_bundle = query_str query_bundle' →
  synthesize self query_bundle nodes additional_source_nodes w
  = synthesize self query_bundle' nodes' additional_source_nodes' w.
Proof.
  intros Hquery. rewrite !synthesize_eq.
  unfold prediction, prediction_call. by rewrite Hquery.
Qed.

(** X7: retrieval followed by synthesis on the retrieved nodes is
    synthesis alone: [retrieve] adds no call and no failure, and the
    nodes it yields make no difference. *)
Theorem retrieve_then_synthesize (self : GPTEmptyIndexQuery)
    (query_bundle : QueryBundle) nodes additional_source_nodes
    additional_source_nodes' (w : world) :
  py_bind (retrieve self query_bundle)
    (λ retrieved, synthesize self query_bundle retrieved additional_source_nodes) w
  = synthesize self query_bundle nodes additional_source_nodes' w.
Proof. unfold retrieve. rewrite py_bind_ret. by rewrite !synthesize_eq. Qed.

(** X8: the streaming flag selects the method of the predictor and
    nothing else: two instances that differ only in the flag, on a
    predictor whose two methods agree on this call, give the same
    outcome and leave the same store. *)
Theorem synthesize_flag_selects_method (self self' : GPTEmptyIndexQuery)
    (query_bundle : QueryBundle) nodes additional_source_nodes (w : world) :
  _input_prompt self' = _input_prompt self →
  _service_context (super self') = _service_context (super self) →
  _streaming (super self) = false →
  _streaming (super self') = true →
  predict_with_stream (llm_predictor (_service_context (super self)))
    (_input_prompt self) true {[ "query_str" := query_str query_bundle ]} (store w)
  = predict (llm_predictor (_service_context (super self)))
      (_input_prompt self) {[ "query_str" := query_str query_bundle ]} (store w) →
  (synthesize self' query_bundle nodes additional_source_nodes w).1
  = (synthesize self query_bundle nodes additional_source_nodes w).1
  ∧ store (synthesize self' query_bundle nodes additional_source_nodes w).2
    = store (synthesize self query_bundle nodes additional_source_nodes w).2.
Proof.
  intros Hprompt Hcontext Hblocking Hstreaming Hagree.
  rewrite !synthesize_eq. unfold prediction. cbn zeta. cbn [fst snd store].
  by rewrite Hblocking, Hstreaming, Hprompt, Hcontext, Hagree.
Qed.

(** X9: a failure of [from_args] has one of two origins.  Either the
    mode in force is not GENERATION, the exception is the ValueError and
    the world is untouched; or the mode is GENERATION and the exception
    is the one the base factory raised, after the single call to it. *)
Theorem from_args_failure_origin (response_mode : option ResponseMode)
    (kwargs : gmap string Any) (w w' : world) (e : exn) :
  from_args response_mode kwargs w = (Raised e, w') →
  (default GENERATION response_mode ≠ GENERATION
   ∧ e = ValueError "response_mode should not be specified for empty query"
   ∧ w' = w)
  ∨ (default GENERATION response_mode = GENERATION
     ∧ BaseGPTIndexQuery_from_args GENERATION kwargs (store w) = (Raised e, store w')
     ∧ trace w' = trace w ++ [EvSuperFromArgs GENERATION kwargs]).
Proof.
  unfold from_args.
  destruct (decide (default GENERATION response_mode = GENERATION)) as [Hmode|Hmode].
  - rewrite bool_decide_eq_false_2 by (intros Hne; by apply Hne).
    rewrite Hmode, foreign_eq.
    destruct (BaseGPTIndexQuery_from_args GENERATION kwargs (store w)) as [r s].
    cbn [fst snd]. intros [= -> <-]. right. done.
  - rewrite bool_decide_eq_true_2 by done.
    unfold raise. intros [= <- <-]. left. done.
Qed.

(** X10: an instance keeps nothing between calls: two calls in a row
    issue exactly two calls to the predictor, in order, each with the
    template of the instance and the query of its own bundle, the second
    on the store the first one left, also when the first one failed. *)
Theorem synthesize_twice (self : GPTEmptyIndexQuery)
    (first second : QueryBundle) nodes nodes'
    additional_source_nodes additional_source_nodes' (w : world) :
  let w1 := (synthesize self first nodes additional_source_nodes w).2 in
  let w2 := (synthesize self second nodes' additional_source_nodes' w1).2 in
  trace w2 = trace w ++ [prediction_call self (_input_prompt self) first;
                         prediction_call self (_input_prompt self) second]
  ∧ store w2 = (prediction self second (prediction self first (store w)).2).2.
Proof.
  intros w1 w2. subst w1 w2. rewrite !synthesize_eq. cbn zeta. cbn [fst snd trace store].
  by rewrite <- app_assoc.
Qed.

End Further.

(** * The methods at work on the small installation *)

Import Demo.

Example blocking_run :
  synthesize blocking france [("Paris is in France", 7)] None fresh =
  (Returned (IsResponse {| response := "{query_str} <- capital of France";
                           source_nodes := [] |}),
   World [EvPredict "{query_str}" {[ "query_str" := "capital of France" ]}] 1).
Proof. reflexivity. Qed.

Example streaming_run :
  synthesize streaming france [] (Some [("Paris is in France", 7)]) fresh =
  (Returned (IsResponse {| response := "{query_str} <~ capital of France";
                           source_nodes := [] |}),
   World [EvPredictWithStream "{query_str}" true
            {[ "query_str" := "capital of France" ]}] 1).
Proof. reflexivity. Qed.

Example offline_run :
  synthesize offline france [] None fresh =
  (Raised (Exception "TimeoutError" "provider did not answer"),
   World [EvPredict "{query_str}" {[ "query_str" := "capital of France" ]}] 0).
Proof. reflexivity. Qed.

Example refine_rejected :
  from_args (Some Refine) {[ "streaming" := "True" ]} fresh =
  (Raised (ValueError "response_mode should not be specified for empty query"),
   fresh).
Proof. reflexivity. Qed.

Example custom_template_kept :
  (init (Some "Q: {query_str}") ∅ fresh).1 =
  Returned {| _input_prompt := "Q: {query_str}"; super := base_of ∅ |}.
Proof. reflexivity. Qed.

Lemma synthesize_blocking_witness :
  _streaming (super blocking) = false
  ∧ (synthesize blocking france [] None fresh).2 =
    World [EvPredict "{query_str}" {[ "query_str" := "capital of France" ]}] 1
  ∧ (synthesize blocking france [] None fresh).1 =
    Returned (IsResponse {| response := "{query_str} <- capital of France";
                            source_nodes := [] |}).
Proof.
  split; [reflexivity|].
  destruct (synthesize_blocking (H := imports) blocking france [] None fresh eq_refl)
    as [Hworld Hresult].
  split; [exact Hworld|].
  exact (Hresult "{query_str} <- capital of France" "{query_str}" eq_refl).
Defined.

Lemma synthesize_streaming_witness :
  _streaming (super streaming) = true
  ∧ (synthesize streaming france [] None fresh).2 =
    World [EvPredictWithStream "{query_str}" true
             {[ "query_str" := "capital of France" ]}] 1
  ∧ (synthesize streaming france [] None fresh).1 =
    Returned (IsResponse {| response := "{query_str} <~ capital of France";
                            source_nodes := [] |}).
Proof.
  split; [reflexivity|].
  destruct (synthesize_streaming (H := imports) streaming france [] None fresh eq_refl)
    as (Hworld & _ & Hresult).
  split; [exact Hworld|].
  exact (Hresult "{query_str} <~ capital of France" "{query_str}" eq_refl).
Defined.

Lemma from_args_validation_witness :
  (Refine ≠ Generation
   ∧ from_args (Some Refine) ∅ fresh =
     (Raised (ValueError "response_mode should not be specified for empty query"),
      fresh))
  ∧ (from_args None ∅ fresh).2 = World [EvSuperFromArgs Generation ∅] 0.
Proof.
  split.
  - split; [discriminate|].
    apply (from_args_validation (H := imports) (Some Refine) ∅ fresh). discriminate.
  - exact (f_equal snd
             (proj2 (from_args_validation (H := imports) None ∅ fresh) eq_refl)).
Defined.

Lemma from_args_returns_generation_witness :
  from_args (Some Generation) ∅ fresh =
    (Returned blocking, World [EvSuperFromArgs Generation ∅] 0)
  ∧ default Generation (Some Generation) = Generation
  ∧ trace (World [EvSuperFromArgs Generation ∅] 0) =
    trace fresh ++ [EvSuperFromArgs Generation ∅].
Proof.
  split; [reflexivity|].
  exact (from_args_returns_generation (H := imports) (Some Generation) ∅ fresh
           (World [EvSuperFromArgs Generation ∅] 0) blocking eq_refl).
Defined.

Lemma synthesize_propagates_witness :
  (prediction offline france (store fresh)).1 =
    Raised (Exception "TimeoutError" "provider did not answer")
  ∧ synthesize offline france [("Paris is in France", 7)] None fresh =
    (Raised (Exception "TimeoutError" "provider did not answer"),
     World [EvPredict "{query_str}" {[ "query_str" := "capital of France" ]}] 0).
Proof.
  split; [reflexivity|].
  exact (synthesize_propagates (H := imports) offline france
           [("Paris is in France", 7)] None fresh
           (Exception "TimeoutError" "provider did not answer") eq_refl).
Defined.

Lemma synthesize_no_source_nodes_witness :
  synthesize blocking france [("Paris is in France", 7)] (Some [("Lyon", 2)]) fresh =
    (Returned (IsResponse {| response := "{query_str} <- capital of France";
                             source_nodes := [] |}),
     World [EvPredict "{query_str}" {[ "query_str" := "capital of France" ]}] 1)
  ∧ ∃ text metadata,
      (prediction blocking france (store fresh)).1 = Returned (text, metadata)
      ∧ IsResponse {| response := "{query_str} <- capital of France";
                      source_nodes := [] |}
        = IsResponse (Response_new text None)
      ∧ IsResponse {| response := "{query_str} <- capital of France";
                      source_nodes := [] |}
        = IsResponse {| response := text; source_nodes := [] |}.
Proof.
  split; [reflexivity|].
  exact (synthesize_no_source_nodes (H := imports) blocking france
           [("Paris is in France", 7)] (Some [("Lyon", 2)]) fresh _ _ eq_refl).
Defined.

Lemma init_falsy_prompt_witness :
  Some "" ≠ None
  ∧ truthy (Some "") = false
  ∧ init (Some "") ∅ fresh = (Returned blocking, World [EvSuperInit ∅] 0)
  ∧ _input_prompt blocking = "{query_str}".
Proof.
  split; [discriminate|]. split; [reflexivity|]. split; [reflexivity|].
  exact (init_falsy_prompt (H := imports) (Some "") ∅ fresh
           (World [EvSuperInit ∅] 0) blocking eq_refl eq_refl).
Defined.

(** * The further properties on the installation *)

Example strict_base_rejects :
  init (H0 := Scenario.strict) (Some "Q: {query_str}") {[ "streaming" := "True" ]} fresh =
  (Raised (Exception "TypeError" "missing argument: index_struct"),
   World [EvSuperInit {[ "streaming" := "True" ]}] 0).
Proof. reflexivity. Qed.

Example two_questions :
  (synthesize blocking Scenario.italy [] None
     (synthesize blocking france [] None fresh).2).2 =
  World [EvPredict "{query_str}" {[ "query_str" := "capital of France" ]};
         EvPredict "{query_str}" {[ "query_str" := "capital of Italy" ]}] 2.
Proof. reflexivity. Qed.

Lemma init_raises_iff_base_witness :
  (BaseGPTIndexQuery_init (H := imports) (Super := Scenario.strict) ∅
     (store fresh)).1 =
    Raised (Exception "TypeError" "missing argument: index_struct")
  ∧ (init (H0 := Scenario.strict) (Some "Q: {query_str}") ∅ fresh).1 =
    Raised (Exception "TypeError" "missing argument: index_struct").
Proof.
  split; [reflexivity|].
  exact (proj2 (init_raises_iff_base (Imp := imports) (Sup := Scenario.strict)
                  (Some "Q: {query_str}") ∅ fresh
                  (Exception "TypeError" "missing argument: index_struct"))
           eq_refl).
Defined.

Lemma init_prompt_not_forwarded_witness :
  (init (Some "Q: {query_str}") {[ "streaming" := "True" ]} fresh).1 = Returned tutor
  ∧ ∃ self', (init None {[ "streaming" := "True" ]} fresh).1 = Returned self'
             ∧ super self' = super tutor.
Proof.
  split; [reflexivity|].
  exact (proj2 (init_prompt_not_forwarded (Imp := imports) (Sup := base)
                  (Some "Q: {query_str}") None {[ "streaming" := "True" ]} fresh)
           tutor eq_refl).
Defined.

Lemma init_template_idempotent_witness :
  init (Some "") ∅ fresh = (Returned blocking, World [EvSuperInit ∅] 0)
  ∧ init (Some (_input_prompt blocking)) {[ "streaming" := "True" ]} fresh =
    (Returned streaming, World [EvSuperInit {[ "streaming" := "True" ]}] 0)
  ∧ _input_prompt streaming = _input_prompt blocking.
Proof.
  split; [reflexivity|]. split; [reflexivity|].
  exact (init_template_idempotent (Imp := imports) (Sup := base)
           (Some "") ∅ {[ "streaming" := "True" ]} fresh _ fresh _
           blocking streaming eq_refl eq_refl).
Defined.

Lemma init_template_origin_witness :
  init (Some "Q: {query_str}") {[ "streaming" := "True" ]} fresh =
    (Returned tutor, World [EvSuperInit {[ "streaming" := "True" ]}] 0)
  ∧ SimpleInputPrompt_bool DEFAULT_SIMPLE_INPUT_PROMPT = true
  ∧ (Some "Q: {query_str}" = Some (_input_prompt tutor)
     ∨ _input_prompt tutor = DEFAULT_SIMPLE_INPUT_PROMPT)
  ∧ SimpleInputPrompt_bool (_input_prompt tutor) = true.
Proof.
  split; [reflexivity|]. split; [reflexivity|].
  destruct (init_template_origin (Imp := imports) (Sup := base)
              (Some "Q: {query_str}") {[ "streaming" := "True" ]} fresh _ tutor
              eq_refl) as [Horigin Htruthy].
  split; [exact Horigin | exact (Htruthy eq_refl)].
Defined.

Lemma synthesize_raises_only_predictor_witness :
  synthesize offline france [] None fresh =
    (Raised (Exception "TimeoutError" "provider did not answer"),
     World [EvPredict "{query_str}" {[ "query_str" := "capital of France" ]}] 0)
  ∧ prediction offline france (store fresh) =
    (Raised (Exception "TimeoutError" "provider did not answer"), 0).
Proof.
  split; [reflexivity|].
  exact (synthesize_raises_only_predictor (Imp := imports) offline france [] None
           fresh _ _ eq_refl).
Defined.

Lemma synthesize_reads_query_str_only_witness :
  custom_embedding_strs france ≠ custom_embedding_strs Scenario.france_embedded
  ∧ query_str france = query_str Scenario.france_embedded
  ∧ synthesize blocking france [] None fresh
    = synthesize blocking Scenario.france_embedded [("Paris is in France", 7)]
        (Some []) fresh.
Proof.
  split; [discriminate|]. split; [reflexivity|].
  exact (synthesize_reads_query_str_only (Imp := imports) blocking france
           Scenario.france_embedded [] [("Paris is in France", 7)] None (Some [])
           fresh eq_refl).
Defined.

Lemma synthesize_flag_selects_method_witness :
  (synthesize Scenario.steady_streaming france [] None fresh).1
  = (synthesize Scenario.steady_blocking france [] None fresh).1
  ∧ store (synthesize Scenario.steady_streaming france [] None fresh).2
    = store (synthesize Scenario.steady_blocking france [] None fresh).2.
Proof.
  exact (synthesize_flag_selects_method (Imp := imports)
           Scenario.steady_blocking Scenario.steady_streaming france [] None fresh
           eq_refl eq_refl eq_refl eq_refl eq_refl).
Defined.

Lemma from_args_failure_origin_witness :
  (from_args (Some Refine) ∅ fresh =
     (Raised (ValueError "response_mode should not be specified for empty query"),
      fresh)
   ∧ Refine ≠ Generation)
  ∧ (from_args (H0 := Scenario.strict) None ∅ fresh =
       (Raised (Exception "TypeError" "missing argument: index_struct"),
        World [EvSuperFromArgs Generation ∅] 0)
     ∧ BaseGPTIndexQuery_from_args (H := imports) (Super := Scenario.strict)
         Generation ∅ 0 =
       (Raised (Exception "TypeError" "missing argument: index_struct"), 0)).
Proof.
  split.
  - split; [reflexivity|].
    destruct (from_args_failure_origin (Imp := imports) (Sup := base)
                (Some Refine) ∅ fresh fresh _ eq_refl)
      as [(Hmode & _ & _) | (Hmode & _ & _)]; [exact Hmode | discriminate Hmode].
  - assert (from_args (H0 := Scenario.strict) None ∅ fresh =
              (Raised (Exception "TypeError" "missing argument: index_struct"),
               World [EvSuperFromArgs Generation ∅] 0)) as Hrun by reflexivity.
    split; [exact Hrun|].
    destruct (from_args_failure_origin (Imp := imports) (Sup := Scenario.strict)
                None ∅ fresh _ _ Hrun)
      as [(Hmode & _ & _) | (_ & Hbase & _)]; [by destruct Hmode | exact Hbase].
Defined.

(** * Templates on the installation with plain prompt objects *)

Import Plain.

Example blank_template_kept :
  init (H := Plain.imports) (H0 := Plain.base) (Some (Plain.Prompt "")) ∅ Plain.fresh =
  (Returned Plain.blank, World [EvSuperInit ∅] 0).
Proof. reflexivity. Qed.

